(** * ITUSB1 device class (itusb1device.cpp, version 1.0.0)

    A shallow embedding of the [ITUSB1Device] class and the properties of its
    sequencing layer: the order of the VBUS and data line transitions of
    [attach] and [detach], and the averaging of [getCurrent].

    The class drives a CP2130 USB-to-SPI bridge through the [CP2130] class,
    which is not part of this translation unit.  Every member function of
    [ITUSB1Device] is therefore embedded as a program over the bridge
    operations it calls ([Prog]); such a program is then run against an
    environment that answers the operations ([Env], [run]).  Properties that
    hold whatever the bridge answers are proved for every environment; the
    properties that rest on the GPIO pins keeping the level last written to
    them are proved on a simulated bridge ([Bridge], [sim]). *)

From Stdlib Require Import ZArith List String Bool Lia QArith Qabs.
From Stdlib Require Import Strings.Byte.
From Stdlib Require Import Floats.SpecFloat.
Import ListNotations.

Local Open Scope Z_scope.

(** ** IEEE 754 arithmetic of the C++ [double] and [float] types *)

Module IEEE.

(** binary64 ([double]) and binary32 ([float]) as instances of the
    parameterised operations of [SpecFloat]; all of them round to nearest,
    ties to even. *)
Definition prec64 : Z := 53.
Definition emax64 : Z := 1024.
Definition prec32 : Z := 24.
Definition emax32 : Z := 128.

(** Conversion of an integer to [double]. *)
Definition double_of_Z (z : Z) : spec_float :=
  binary_normalize prec64 emax64 z 0 false.

Definition double_mul : spec_float -> spec_float -> spec_float :=
  SFmul prec64 emax64.

Definition double_div : spec_float -> spec_float -> spec_float :=
  SFdiv prec64 emax64.

(** Conversion of a [double] to [float], as done when a [double] expression is
    returned from a function whose return type is [float]. *)
Definition float_of_double (x : spec_float) : spec_float :=
  match x with
  | S754_finite s m e => binary_round prec32 emax32 s m e
  | _ => x
  end.

(** The [float] nearest to [m * 2^e]. *)
Definition float_of_scaled (m e : Z) : spec_float :=
  binary_normalize prec32 emax32 m e false.

(** Comparison of two floating point values, [x <= y]. *)
Definition leb : spec_float -> spec_float -> bool := SFleb.

(** The rational number a finite value stands for. *)
Definition to_Q (x : spec_float) : Q :=
  match x with
  | S754_finite s m e =>
      let n := if s then Zneg m else Zpos m in
      match e with
      | Z0 => inject_Z n
      | Zpos k => inject_Z (n * Z.pow_pos 2 k)
      | Zneg k => Qmake n (Pos.pow 2 k)
      end
  | _ => 0%Q
  end.

Definition is_finite (x : spec_float) : bool :=
  match x with
  | S754_finite _ _ _ | S754_zero _ => true
  | _ => false
  end.

End IEEE.

(** ** Definitions of the translation unit *)

(** [const size_t N_SAMPLES = 5] *)
Definition N_SAMPLES : Z := 5.

(** [size_t] arithmetic is modulo [2^64] (LP64). *)
Definition SIZE_MODULUS : Z := 2 ^ 64.

(** The floating point expression of [getCurrent]'s return statement,
    [currentCodeSum / (4.0 * N_SAMPLES)], converted to the [float] the
    function returns. *)
Definition currentOfSum (currentCodeSum : Z) : spec_float :=
  IEEE.float_of_double
    (IEEE.double_div
       (IEEE.double_of_Z currentCodeSum)
       (IEEE.double_mul (IEEE.double_of_Z 4) (IEEE.double_of_Z N_SAMPLES))).

(** The expression of [getRawCurrent]'s return statement for the vector the
    SPI read produced.  The bytes are [uint8_t], promoted to [int] by the
    shifts; the result is cast to [uint16_t]. *)
Definition byteval (b : byte) : Z := Z.of_N (Byte.to_N b).

Definition rawCurrentCode (read : list byte) : Z :=
  if Z.of_nat (List.length read) =? 2
  then (Z.lor (Z.shiftl (byteval (nth 0 read x00)) 4)
              (Z.shiftr (byteval (nth 1 read x00)) 4)) mod 2 ^ 16
  else 0.

(** The largest sum [N_SAMPLES] codes of 12 bits add up to. *)
Definition MAX_SUM : Z := N_SAMPLES * 4095.

(** Bounded search, used to check a property of [currentOfSum] on every sum
    up to [MAX_SUM]. *)
Fixpoint allFrom (fuel : nat) (z : Z) (p : Z -> bool) : bool :=
  match fuel with
  | O => true
  | S k => p z && allFrom k (z + 1) p
  end.

(** What is checked of the value returned for the sum [s]: it is a finite
    number between 0 and 1023.75, it is within a relative error of [2^-24]
    of [s / 20], and it is [s / 20] itself when that is a multiple of
    0.25. *)
Definition sumCheck (s : Z) : bool :=
  let v := currentOfSum s in
  IEEE.is_finite v
  && IEEE.leb (S754_zero false) v
  && IEEE.leb v (IEEE.float_of_scaled 4095 (-2))
  && Qle_bool 0 (IEEE.to_Q v)
  && Qle_bool (IEEE.to_Q v) (4095 # 4)
  && Qle_bool (Qabs (IEEE.to_Q v - (s # 20))) ((s # 20) * (1 # 2 ^ 24))
  && (negb (s mod 5 =? 0) || Qeq_bool (IEEE.to_Q v) (s # 20)).

(** What is checked of two successive sums [s] and [s + 1]: the value
    returned for the second is strictly above the one for the first. *)
Definition stepCheck (s : Z) : bool :=
  negb (Qle_bool (IEEE.to_Q (currentOfSum (s + 1))) (IEEE.to_Q (currentOfSum s))).

(** What is checked of the values [a] and [b] of the two bytes of a reading:
    the code assembled from them is the upper 12 bits of the 16 bit word
    [a * 256 + b]. *)
Definition assembleCheck (a b : Z) : bool :=
  (Z.lor (Z.shiftl a 4) (Z.shiftr b 4)) mod 2 ^ 16 =? (256 * a + b) / 16.

(** ** The bridge interface and programs over it *)

(** The caller-supplied [int &errcnt] and [std::string &errstr].  Both are
    handed on by reference to every [CP2130] member function that takes
    them, and are written by nothing else. *)
Record Err : Type := mkErr { errcnt : Z; errstr : string }.

(** [CP2130::SPIMode], with the four members [setup] assigns. *)
Record SPIMode : Type := mkSPIMode { csmode : Z; cfrq : Z; cpol : Z; cpha : Z }.

Section ITUSB1Device.

Set Default Proof Using "Type".

(** Declarations of [cp2130.h] and [itusb1device.h] used by the class. *)
Variable USBConfig : Type.                 (* CP2130::USBConfig *)
Variables BMGPIO1 BMGPIO2 BMGPIOS : Z.     (* CP2130::BMGPIO1, BMGPIO2, BMGPIOS *)
Variables CSMODEPP CFRQ1500K CPOL0 CPHA0 : Z.
Variables VID PID : Z.                     (* ITUSB1Device::VID, PID *)

(** Member functions of [CP2130] that take [errcnt] and [errstr], indexed by
    the type of what they return. *)
Inductive Op : Type -> Type :=
| CP2130_spiRead (bytesToRead endpointInAddr endpointOutAddr : Z) : Op (list byte)
| CP2130_selectCS (channel : Z) : Op unit
| CP2130_disableCS (channel : Z) : Op unit
| CP2130_configureSPIMode (channel : Z) (mode : SPIMode) : Op unit
| CP2130_disableSPIDelays (channel : Z) : Op unit
| CP2130_getGPIO1 : Op bool
| CP2130_getGPIO2 : Op bool
| CP2130_getGPIO3 : Op bool
| CP2130_setGPIO1 (value : bool) : Op unit
| CP2130_setGPIO2 (value : bool) : Op unit
| CP2130_setGPIOs (bmValues bmMask : Z) : Op unit
| CP2130_getManufacturerDesc : Op (list Z)
| CP2130_getProductDesc : Op (list Z)
| CP2130_getSerialDesc : Op (list Z)
| CP2130_getUSBConfig : Op USBConfig
| CP2130_reset : Op unit
| CP2130_listDevices (vid pid : Z) : Op (list string).

(** Calls that are given neither [errcnt] nor [errstr]. *)
Inductive Sys : Type -> Type :=
| usleep (usec : Z) : Sys unit
| CP2130_disconnected : Sys bool
| CP2130_isOpen : Sys bool
| CP2130_close : Sys unit
| CP2130_open (vid pid : Z) (serial : string) : Sys Z.

(** A member function of [ITUSB1Device]: the calls it makes, each continued
    with what the call returned. *)
Inductive Prog (A : Type) : Type :=
| Ret (a : A)
| Call {X : Type} (op : Op X) (k : X -> Prog A)
| SysCall {X : Type} (op : Sys X) (k : X -> Prog A).

Arguments Ret {A} a.
Arguments Call {A X} op k.
Arguments SysCall {A X} op k.

Fixpoint bind {A B : Type} (p : Prog A) (f : A -> Prog B) : Prog B :=
  match p with
  | Ret a => f a
  | Call op k => Call op (fun x => bind (k x) f)
  | SysCall op k => SysCall op (fun x => bind (k x) f)
  end.

Definition call {X : Type} (op : Op X) : Prog X := Call op Ret.
Definition syscall {X : Type} (op : Sys X) : Prog X := SysCall op Ret.

Notation "x <- p ;; q" := (bind p (fun x => q))
  (at level 61, p at next level, right associativity).
Notation "p ;; q" := (bind p (fun _ => q))
  (at level 61, right associativity).

(** The two operands of [!=] are unsequenced: either may be evaluated
    first. *)
Inductive EvalOrder : Type := LeftFirst | RightFirst.

Definition operands {A B : Type} (o : EvalOrder) (l : Prog A) (r : Prog B)
  : Prog (A * B) :=
  match o with
  | LeftFirst => a <- l ;; b <- r ;; Ret (a, b)
  | RightFirst => b <- r ;; a <- l ;; Ret (a, b)
  end.

(** ** The member functions of [ITUSB1Device] *)

Definition getRawCurrent : Prog Z :=
  read <- call (CP2130_spiRead 2 0x82 0x01) ;;
  Ret (rawCurrentCode read).

Definition disconnected : Prog bool := syscall CP2130_disconnected.

Definition isOpen : Prog bool := syscall CP2130_isOpen.

Definition getUSBDataStatus : Prog bool :=
  level <- call CP2130_getGPIO2 ;; Ret (negb level).

Definition getUSBPowerStatus : Prog bool :=
  level <- call CP2130_getGPIO1 ;; Ret (negb level).

Definition getOvercurrentStatus : Prog bool :=
  level <- call CP2130_getGPIO3 ;; Ret (negb level).

Definition switchUSB (value : bool) : Prog unit :=
  call (CP2130_setGPIOs (BMGPIOS * Z.b2z (negb value)) (Z.lor BMGPIO1 BMGPIO2)).

Definition switchUSBData (value : bool) : Prog unit :=
  call (CP2130_setGPIO2 (negb value)).

Definition switchUSBPower (value : bool) : Prog unit :=
  call (CP2130_setGPIO1 (negb value)).

Definition attach (o : EvalOrder) : Prog unit :=
  pd <- operands o getUSBPowerStatus getUSBDataStatus ;;
  (if negb (Bool.eqb (fst pd) (snd pd))
   then switchUSB false ;; syscall (usleep 100000)
   else Ret tt) ;;
  power <- getUSBPowerStatus ;;
  bothOff <- (if negb power
              then data <- getUSBDataStatus ;; Ret (negb data)
              else Ret false) ;;
  if bothOff : bool
  then switchUSBPower true ;;
       syscall (usleep 100000) ;;
       switchUSBData true ;;
       syscall (usleep 100000)
  else Ret tt.

Definition close : Prog unit := syscall CP2130_close.

Definition detach : Prog unit :=
  data <- getUSBDataStatus ;;
  (if data : bool
   then switchUSBData false ;; syscall (usleep 100000)
   else Ret tt) ;;
  power <- getUSBPowerStatus ;;
  if power : bool
  then switchUSBPower false ;; syscall (usleep 100000)
  else Ret tt.

(** The [for] loop of [getCurrent]: [n] iterations are left to run and
    [currentCodeSum] is the [size_t] accumulator. *)
Fixpoint sampleLoop (n : nat) (currentCodeSum : Z) : Prog Z :=
  match n with
  | O => Ret currentCodeSum
  | S n' =>
      code <- getRawCurrent ;;
      sampleLoop n' ((currentCodeSum + code) mod SIZE_MODULUS)
  end.

Definition getCurrent : Prog spec_float :=
  call (CP2130_selectCS 0) ;;
  getRawCurrent ;;
  currentCodeSum <- sampleLoop (Z.to_nat N_SAMPLES) 0 ;;
  syscall (usleep 100) ;;
  call (CP2130_disableCS 0) ;;
  Ret (currentOfSum currentCodeSum).

Definition getManufacturerDesc : Prog (list Z) := call CP2130_getManufacturerDesc.

Definition getProductDesc : Prog (list Z) := call CP2130_getProductDesc.

Definition getSerialDesc : Prog (list Z) := call CP2130_getSerialDesc.

Definition getUSBConfig : Prog USBConfig := call CP2130_getUSBConfig.

Definition open (serial : string) : Prog Z := syscall (CP2130_open VID PID serial).

Definition reset : Prog unit := call CP2130_reset.

Definition setup : Prog unit :=
  let mode := {| csmode := CSMODEPP; cfrq := CFRQ1500K; cpol := CPOL0; cpha := CPHA0 |} in
  call (CP2130_configureSPIMode 0 mode) ;;
  call (CP2130_disableSPIDelays 0) ;;
  call (CP2130_selectCS 0) ;;
  getRawCurrent ;;
  syscall (usleep 1100) ;;
  call (CP2130_disableCS 0).

Definition listDevices : Prog (list string) := call (CP2130_listDevices VID PID).

(** ** Running a program *)

(** An environment answers the calls: [drv] the ones that are handed the
    error counter and message (which it may update), [sys] the others. *)
Record Env (W : Type) : Type := mkEnv {
  drv : forall X : Type, Op X -> W -> Err -> X * W * Err;
  sys : forall X : Type, Sys X -> W -> X * W
}.

Arguments drv {W} e {X} op w err.
Arguments sys {W} e {X} op w.

(** What was called, and what it returned. *)
Inductive Event : Type :=
| Ev {X : Type} (op : Op X) (ret : X)
| SysEv {X : Type} (op : Sys X) (ret : X).

Record Outcome (W A : Type) : Type := mkOutcome {
  value : A;
  world : W;
  err : Err;
  trace : list Event
}.

Arguments mkOutcome {W A} value world err trace.
Arguments value {W A} o.
Arguments world {W A} o.
Arguments err {W A} o.
Arguments trace {W A} o.

Fixpoint run {W A : Type} (env : Env W) (p : Prog A) (w : W) (e : Err)
  : Outcome W A :=
  match p with
  | Ret a => mkOutcome a w e []
  | Call op k =>
      let '(x, w1, e1) := drv env op w e in
      let o := run env (k x) w1 e1 in
      mkOutcome (value o) (world o) (err o) (Ev op x :: trace o)
  | SysCall op k =>
      let '(x, w1) := sys env op w in
      let o := run env (k x) w1 e in
      mkOutcome (value o) (world o) (err o) (SysEv op x :: trace o)
  end.

(** Projections of a trace. *)

(** The vectors the SPI reads returned, in order. *)
Definition spiReads (t : list Event) : list (list byte) :=
  flat_map (fun ev =>
    match ev with
    | Ev op ret =>
        match op in Op X return X -> list (list byte) with
        | CP2130_spiRead _ _ _ => fun r => [r]
        | _ => fun _ => []
        end ret
    | SysEv _ _ => []
    end) t.

(** Changes of the switch lines and waits. *)
Inductive Step : Type :=
| PowerLine (on : bool)       (* setGPIO1(!on) *)
| DataLine (on : bool)        (* setGPIO2(!on) *)
| Lines (bmValues bmMask : Z) (* setGPIOs(bmValues, bmMask) *)
| Wait (usec : Z).            (* usleep(usec) *)

Definition steps (t : list Event) : list Step :=
  flat_map (fun ev =>
    match ev with
    | Ev op _ =>
        match op with
        | CP2130_setGPIO1 v => [PowerLine (negb v)]
        | CP2130_setGPIO2 v => [DataLine (negb v)]
        | CP2130_setGPIOs vs m => [Lines vs m]
        | _ => []
        end
    | SysEv op _ =>
        match op with
        | usleep us => [Wait us]
        | _ => []
        end
    end) t.

Definition isWait (s : Step) : bool :=
  match s with Wait _ => true | _ => false end.

Definition isLineChange (s : Step) : bool := negb (isWait s).

(** ** A simulated bridge *)

(** A transfer that fails: the message the driver appends, and what the call
    then returns in place of the level or of the data. *)
Record Fault : Type := mkFault {
  message : string;
  strayLevel : bool;
  strayBytes : list byte
}.

(** The simulated fixture: the levels of GPIO.1 (!UPEN), GPIO.2 (!UDEN) and
    GPIO.3 (!UDOC), the data the ADC delivers to the coming SPI reads, the
    USB configuration, the outcome of each of the coming transfers ([None],
    or no entry: the transfer succeeds) and the time spent in [usleep]. *)
Record Bridge : Type := mkBridge {
  gpio1 : bool;
  gpio2 : bool;
  gpio3 : bool;
  miso : list (list byte);
  config : USBConfig;
  faults : list (option Fault);
  slept : Z
}.

Definition withGPIO (b : Bridge) (l1 l2 : bool) : Bridge :=
  mkBridge l1 l2 (gpio3 b) (miso b) (config b) (faults b) (slept b).

Definition withMiso (b : Bridge) (m : list (list byte)) : Bridge :=
  mkBridge (gpio1 b) (gpio2 b) (gpio3 b) m (config b) (faults b) (slept b).

Definition withFaults (b : Bridge) (fs : list (option Fault)) : Bridge :=
  mkBridge (gpio1 b) (gpio2 b) (gpio3 b) (miso b) (config b) fs (slept b).

Definition withSlept (b : Bridge) (t : Z) : Bridge :=
  mkBridge (gpio1 b) (gpio2 b) (gpio3 b) (miso b) (config b) (faults b) t.

(** One transfer: a failure increments the counter and appends its message,
    and execution goes on. *)
Definition transfer (b : Bridge) (e : Err) : option Fault * Bridge * Err :=
  match faults b with
  | [] => (None, b, e)
  | None :: fs => (None, withFaults b fs, e)
  | Some f :: fs =>
      (Some f, withFaults b fs,
       mkErr (errcnt e + 1) (errstr e ++ message f))
  end.

(** The level a pin takes when [setGPIOs] is given [bmValues] and [bmMask]:
    a pin outside the mask keeps its level. *)
Definition maskedLevel (bm bmValues bmMask : Z) (old : bool) : bool :=
  if Z.land bmMask bm =? 0 then old else negb (Z.land bmValues bm =? 0).

(** A pin reads back the level last written to it; a failed transfer changes
    no pin and returns the stray value of the fault. *)
Definition sim_drv (X : Type) (op : Op X) (b : Bridge) (e : Err)
  : X * Bridge * Err :=
  let '(f, b1, e1) := transfer b e in
  let level (pin : bool) : bool :=
    match f with Some flt => strayLevel flt | None => pin end in
  let write (l1 l2 : bool) : Bridge :=
    match f with Some _ => b1 | None => withGPIO b1 l1 l2 end in
  match op in Op X return X * Bridge * Err with
  | CP2130_spiRead n _ _ =>
      match f with
      | Some flt => (firstn (Z.to_nat n) (strayBytes flt), b1, e1)
      | None =>
          match miso b1 with
          | [] => ([], b1, e1)
          | r :: rs => (firstn (Z.to_nat n) r, withMiso b1 rs, e1)
          end
      end
  | CP2130_getGPIO1 => (level (gpio1 b1), b1, e1)
  | CP2130_getGPIO2 => (level (gpio2 b1), b1, e1)
  | CP2130_getGPIO3 => (level (gpio3 b1), b1, e1)
  | CP2130_setGPIO1 v => (tt, write v (gpio2 b1), e1)
  | CP2130_setGPIO2 v => (tt, write (gpio1 b1) v, e1)
  | CP2130_setGPIOs vs m =>
      (tt, write (maskedLevel BMGPIO1 vs m (gpio1 b1))
                 (maskedLevel BMGPIO2 vs m (gpio2 b1)), e1)
  | CP2130_getUSBConfig => (config b1, b1, e1)
  | CP2130_getManufacturerDesc
  | CP2130_getProductDesc
  | CP2130_getSerialDesc => ([], b1, e1)
  | CP2130_listDevices _ _ => ([], b1, e1)
  | CP2130_selectCS _
  | CP2130_disableCS _
  | CP2130_configureSPIMode _ _
  | CP2130_disableSPIDelays _
  | CP2130_reset => (tt, b1, e1)
  end.

Definition sim_sys (X : Type) (op : Sys X) (b : Bridge) : X * Bridge :=
  match op in Sys X return X * Bridge with
  | usleep us => (tt, withSlept b (slept b + us))
  | CP2130_disconnected => (false, b)
  | CP2130_isOpen => (true, b)
  | CP2130_close => (tt, b)
  | CP2130_open _ _ _ => (0, b)
  end.

Definition sim : Env Bridge := mkEnv Bridge sim_drv sim_sys.

(** The status of the switch in a state of the fixture (the lines are active
    low). *)
Definition powerOn (b : Bridge) : bool := negb (gpio1 b).
Definition dataOn (b : Bridge) : bool := negb (gpio2 b).

(** ** Sequences of calls *)

(** The public member functions, with their arguments. *)
Inductive Method : Type :=
| m_disconnected
| m_isOpen
| m_attach (o : EvalOrder)
| m_close
| m_detach
| m_getCurrent
| m_getManufacturerDesc
| m_getOvercurrentStatus
| m_getProductDesc
| m_getSerialDesc
| m_getUSBConfig
| m_getUSBDataStatus
| m_getUSBPowerStatus
| m_open (serial : string)
| m_reset
| m_setup
| m_switchUSB (value : bool)
| m_switchUSBData (value : bool)
| m_switchUSBPower (value : bool)
| m_listDevices.

(** One call, its result dropped. *)
Definition invoke (m : Method) : Prog unit :=
  match m with
  | m_disconnected => disconnected ;; Ret tt
  | m_isOpen => isOpen ;; Ret tt
  | m_attach o => attach o
  | m_close => close
  | m_detach => detach
  | m_getCurrent => getCurrent ;; Ret tt
  | m_getManufacturerDesc => getManufacturerDesc ;; Ret tt
  | m_getOvercurrentStatus => getOvercurrentStatus ;; Ret tt
  | m_getProductDesc => getProductDesc ;; Ret tt
  | m_getSerialDesc => getSerialDesc ;; Ret tt
  | m_getUSBConfig => getUSBConfig ;; Ret tt
  | m_getUSBDataStatus => getUSBDataStatus ;; Ret tt
  | m_getUSBPowerStatus => getUSBPowerStatus ;; Ret tt
  | m_open serial => open serial ;; Ret tt
  | m_reset => reset
  | m_setup => setup
  | m_switchUSB v => switchUSB v
  | m_switchUSBData v => switchUSBData v
  | m_switchUSBPower v => switchUSBPower v
  | m_listDevices => listDevices ;; Ret tt
  end.

Fixpoint session (ms : list Method) : Prog unit :=
  match ms with
  | [] => Ret tt
  | m :: rest => invoke m ;; session rest
  end.

(** The counter has not decreased and the message has only been appended
    to. *)
Definition accumulated (e e' : Err) : Prop :=
  errcnt e <= errcnt e' /\ exists suffix, errstr e' = (errstr e ++ suffix)%string.

(** An environment whose calls only ever accumulate errors. *)
Definition accumulating {W : Type} (env : Env W) : Prop :=
  forall (X : Type) (op : Op X) (w : W) (e : Err),
    accumulated e (snd (drv env op w e)).

(** ** Notions used in the statements *)

(** The event of one raw reading that returned [r]. *)
Definition readEv (r : list byte) : Event := Ev (CP2130_spiRead 2 0x82 0x01) r.

Definition sumCodes (rs : list (list byte)) : Z :=
  fold_right Z.add 0 (map rawCurrentCode rs).

(** Whether a read delivered the 2 bytes asked for. *)
Definition delivered (read : list byte) : bool := Nat.eqb (List.length read) 2.

(** An environment whose answers do not depend on the errors counted so
    far. *)
Definition errorBlind {W : Type} (env : Env W) : Prop :=
  forall (X : Type) (op : Op X) (w : W) (e e' : Err),
    fst (drv env op w e) = fst (drv env op w e').

(** The sequence of line changes and waits of a full attachment: both lines
    off, a wait, power on, a wait, data on, a wait. *)
Definition attachSequence : list Step :=
  [Lines (BMGPIOS * 1) (Z.lor BMGPIO1 BMGPIO2); Wait 100000;
   PowerLine true; Wait 100000; DataLine true; Wait 100000].

(** Follows the chip select of channel 0 along a trace, from whether it is
    selected at the start: the result is whether it is selected at the end,
    or [None] if some SPI read is made while it is not selected.
    [selectCS] selects its channel and no other; a reset releases it. *)
Fixpoint csTrack (selected : bool) (t : list Event) : option bool :=
  match t with
  | [] => Some selected
  | Ev op _ :: t' =>
      match op with
      | CP2130_selectCS channel => csTrack (channel =? 0) t'
      | CP2130_disableCS channel => csTrack (selected && negb (channel =? 0)) t'
      | CP2130_reset => csTrack false t'
      | CP2130_spiRead _ _ _ => if selected then csTrack selected t' else None
      | _ => csTrack selected t'
      end
  | SysEv _ _ :: t' => csTrack selected t'
  end.

(** The time spent waiting, in microseconds. *)
Definition totalWait (l : list Step) : Z :=
  fold_right (fun s acc => match s with Wait usec => usec + acc | _ => acc end) 0 l.

(** The changes of the switch lines among the steps. *)
Definition lineChanges (l : list Step) : list Step := filter isLineChange l.

(** The member functions that query, measure or manage the connection. *)
Definition isQuery (m : Method) : bool :=
  match m with
  | m_attach _ | m_detach | m_reset
  | m_switchUSB _ | m_switchUSBData _ | m_switchUSBPower _ => false
  | _ => true
  end.

(** The member functions that switch VBUS and the data lines together, or
    neither of them. *)
Definition keepsLinesTogether (m : Method) : bool :=
  match m with
  | m_attach _ | m_detach | m_switchUSB _ => true
  | _ => isQuery m
  end.

(** The calls in a trace that were handed the error counter and message:
    each of them is one transfer to the bridge. *)
Definition transfers (t : list Event) : nat :=
  List.length
    (filter (fun ev => match ev with Ev _ _ => true | SysEv _ _ => false end) t).





(** * Properties *)

(** ** Arithmetic of the raw code and of the conversion *)

Example rawCurrentCode_ex1 : rawCurrentCode [x19; xa7] = 0x19a.
Proof. reflexivity. Qed.

Example currentOfSum_ex1 : IEEE.to_Q (currentOfSum 2000) == 100%Q.
Proof. vm_compute. reflexivity. Qed.

Lemma byteval_range (b : byte) : 0 <= byteval b <= 255.
Proof.
  unfold byteval. pose proof (Byte.to_N_bounded b) as Hb. lia.
Qed.

Lemma lor_below_pow2 (x y n : Z) :
  0 <= x < 2 ^ n -> 0 <= y < 2 ^ n -> 0 <= Z.lor x y < 2 ^ n.
Proof.
  intros Hx Hy.
  assert (Hl : 0 <= Z.lor x y) by (apply Z.lor_nonneg; lia).
  split; [exact Hl|].
  destruct (Z.eq_dec (Z.lor x y) 0) as [E|E]; [lia|].
  apply Z.log2_lt_pow2; [lia|].
  rewrite Z.log2_lor by lia.
  assert (Hlog : forall a, 0 <= a < 2 ^ n -> Z.log2 a < n).
  { intros a Ha. destruct (Z.eq_dec a 0) as [->|Na].
    - simpl. destruct (Z.le_gt_cases n 0) as [Hn|Hn]; [|lia].
      exfalso. destruct Hx as [Hx0 Hx1].
      assert (2 ^ n <= 1).
      { destruct (Z.eq_dec n 0) as [->|]; [simpl; lia|].
        rewrite Z.pow_neg_r by lia. lia. }
      assert (x = 0) by lia. assert (y = 0) by lia. subst. apply E. reflexivity.
    - apply Z.log2_lt_pow2; lia. }
  apply Z.max_lub_lt; apply Hlog; assumption.
Qed.

Lemma rawCurrentCode_range (read : list byte) : 0 <= rawCurrentCode read <= 4095.
Proof.
  unfold rawCurrentCode.
  destruct (Z.of_nat (List.length read) =? 2); [|lia].
  pose proof (byteval_range (nth 0 read x00)) as H0.
  pose proof (byteval_range (nth 1 read x00)) as H1.
  assert (Hl : 0 <= Z.lor (Z.shiftl (byteval (nth 0 read x00)) 4)
                         (Z.shiftr (byteval (nth 1 read x00)) 4) < 2 ^ 12).
  { apply lor_below_pow2.
    - rewrite Z.shiftl_mul_pow2 by lia. change (2 ^ 4) with 16.
      change (2 ^ 12) with 4096. lia.
    - rewrite Z.shiftr_div_pow2 by lia. change (2 ^ 4) with 16.
      change (2 ^ 12) with 4096.
      split; [apply Z.div_pos; lia|].
      apply Z.div_lt_upper_bound; lia. }
  change (2 ^ 12) with 4096 in Hl.
  rewrite Z.mod_small; change (2 ^ 16) with 65536; lia.
Qed.

Lemma allFrom_spec (p : Z -> bool) (fuel : nat) :
  forall z, allFrom fuel z p = true ->
  forall s, z <= s < z + Z.of_nat fuel -> p s = true.
Proof.
  induction fuel as [|k IH]; intros z Hall s Hs.
  - simpl in Hs. lia.
  - simpl in Hall. apply andb_true_iff in Hall. destruct Hall as [Hz Hrest].
    destruct (Z.eq_dec s z) as [->|Hne]; [exact Hz|].
    apply (IH (z + 1) Hrest). lia.
Qed.

Lemma sumCheck_all : allFrom (Z.to_nat (MAX_SUM + 1)) 0 sumCheck = true.
Proof. vm_compute. reflexivity. Qed.

Lemma sumCheck_holds (s : Z) : 0 <= s <= MAX_SUM -> sumCheck s = true.
Proof.
  intros Hs. apply (allFrom_spec sumCheck _ 0 sumCheck_all).
  rewrite Z2Nat.id by (unfold MAX_SUM, N_SAMPLES; lia). lia.
Qed.

(** The value returned for a sum of [N_SAMPLES] codes. *)
Lemma currentOfSum_facts (s : Z) :
  0 <= s <= MAX_SUM ->
  IEEE.is_finite (currentOfSum s) = true
  /\ IEEE.leb (S754_zero false) (currentOfSum s) = true
  /\ IEEE.leb (currentOfSum s) (IEEE.float_of_scaled 4095 (-2)) = true
  /\ (0 <= IEEE.to_Q (currentOfSum s) <= 4095 # 4)%Q
  /\ (Qabs (IEEE.to_Q (currentOfSum s) - (s # 20)) <= (s # 20) * (1 # 2 ^ 24))%Q.
Proof.
  intros Hs. pose proof (sumCheck_holds s Hs) as H. unfold sumCheck in H.
  cbv zeta in H.
  repeat (apply andb_true_iff in H; destruct H as [H ?]).
  repeat match goal with
         | Hq : Qle_bool _ _ = true |- _ => apply Qle_bool_iff in Hq
         end.
  auto 10.
Qed.

(** A sum that is a multiple of 5 is converted without rounding: its
    twentieth is a multiple of 0.25. *)
Lemma currentOfSum_exact (s : Z) :
  0 <= s <= MAX_SUM -> s mod 5 = 0 ->
  (IEEE.to_Q (currentOfSum s) == s # 20)%Q.
Proof.
  intros Hs H5. pose proof (sumCheck_holds s Hs) as H. unfold sumCheck in H.
  cbv zeta in H.
  apply andb_true_iff in H. destruct H as [_ H].
  rewrite H5 in H. simpl in H. apply Qeq_bool_iff. exact H.
Qed.

(** The divisor [4.0 * N_SAMPLES] is the [double] 20. *)
Lemma divisor_is_20 :
  IEEE.double_mul (IEEE.double_of_Z 4) (IEEE.double_of_Z N_SAMPLES)
  = IEEE.double_of_Z 20.
Proof. reflexivity. Qed.

(** ** Running sequenced programs *)

Lemma run_bind {W A B : Type} (env : Env W) (p : Prog A) (f : A -> Prog B) :
  forall (w : W) (e : Err),
    run env (bind p f) w e =
      let o := run env p w e in
      let o' := run env (f (value o)) (world o) (err o) in
      mkOutcome (value o') (world o') (err o') (trace o ++ trace o').
Proof.
  induction p as [a | X op k IH | X op k IH]; intros w e; simpl.
  - destruct (run env (f a) w e); reflexivity.
  - destruct (drv env op w e) as [[x w1] e1]. rewrite IH. reflexivity.
  - destruct (sys env op w) as [x w1]. rewrite IH. reflexivity.
Qed.

(** Unfolds a run along the calls of the program, and nothing of the
    arithmetic. *)
Ltac unroll :=
  cbn [run bind call syscall operands getRawCurrent sampleLoop
       getUSBPowerStatus getUSBDataStatus getOvercurrentStatus
       switchUSB switchUSBData switchUSBPower
       value world err trace fst snd app map negb Bool.eqb].

(** Destructs the answers of the environment, one call after the other. *)
Ltac answer :=
  repeat match goal with
         | |- context [drv ?env ?op ?w ?e] =>
             let x := fresh "x" in
             destruct (drv env op w e) as [[x ?] ?]; try destruct x; unroll
         | |- context [sys ?env ?op ?w] =>
             let x := fresh "x" in
             destruct (sys env op w) as [x ?]; try destruct x; unroll
         end.

(** ** The samples of [getCurrent] *)

Lemma sumCodes_range (rs : list (list byte)) :
  0 <= sumCodes rs <= 4095 * Z.of_nat (List.length rs).
Proof.
  unfold sumCodes. induction rs as [|r rs IH]; simpl fold_right; simpl List.length.
  - lia.
  - pose proof (rawCurrentCode_range r). lia.
Qed.

Lemma spiReads_readEv (rs : list (list byte)) : spiReads (map readEv rs) = rs.
Proof.
  induction rs as [|r rs IH]; simpl; [reflexivity|]. f_equal. exact IH.
Qed.

(** The loop invariant: [n] iterations make [n] reads and nothing else, and
    add their codes to the accumulator. *)
Lemma sampleLoop_run {W : Type} (env : Env W) (n : nat) :
  forall (acc : Z) (w : W) (e : Err),
  0 <= acc < SIZE_MODULUS ->
  exists rs : list (list byte),
    List.length rs = n
    /\ trace (run env (sampleLoop n acc) w e) = map readEv rs
    /\ value (run env (sampleLoop n acc) w e) = (acc + sumCodes rs) mod SIZE_MODULUS.
Proof.
  induction n as [|n IH]; intros acc w e Hacc.
  - exists []. unroll. unfold sumCodes. cbn [map fold_right List.length].
    rewrite Z.add_0_r, Z.mod_small by exact Hacc. auto.
  - unroll. destruct (drv env (CP2130_spiRead 2 130 1) w e) as [[r w1] e1].
    destruct (IH ((acc + rawCurrentCode r) mod SIZE_MODULUS) w1 e1)
      as (rs & Hlen & Htr & Hval).
    { apply Z.mod_pos_bound. change SIZE_MODULUS with 18446744073709551616. lia. }
    exists (r :: rs). unroll. cbn [List.length]. rewrite Hlen, Htr, Hval.
    repeat split.
    unfold sumCodes. cbn [map fold_right]. rewrite Zplus_mod_idemp_l. f_equal. lia.
Qed.

(** The whole of [getCurrent]: the chip select, the discarded reading, the
    [N_SAMPLES] readings that are summed, the wait and the release of the
    chip select. *)
Lemma getCurrent_run {W : Type} (env : Env W) (w : W) (e : Err) :
  exists (r0 : list byte) (rs : list (list byte)),
    List.length rs = Z.to_nat N_SAMPLES
    /\ trace (run env getCurrent w e) =
         Ev (CP2130_selectCS 0) tt :: readEv r0 :: map readEv rs
           ++ [SysEv (usleep 100) tt; Ev (CP2130_disableCS 0) tt]
    /\ value (run env getCurrent w e) = currentOfSum (sumCodes rs).
Proof.
  unfold getCurrent. unroll.
  destruct (drv env (CP2130_selectCS 0) w e) as [[[] w1] e1].
  destruct (drv env (CP2130_spiRead 2 130 1) w1 e1) as [[r0 w2] e2].
  rewrite run_bind. unroll.
  destruct (sampleLoop_run env (Z.to_nat N_SAMPLES) 0 w2 e2) as (rs & Hlen & Htr & Hval).
  { change SIZE_MODULUS with 18446744073709551616. lia. }
  exists r0, rs. rewrite Htr, Hval.
  answer.
  repeat split; try assumption.
  f_equal. rewrite Z.add_0_l. apply Z.mod_small.
  pose proof (sumCodes_range rs) as Hr. rewrite Hlen in Hr.
  change (Z.of_nat (Z.to_nat N_SAMPLES)) with 5 in Hr.
  change SIZE_MODULUS with 18446744073709551616. lia.
Qed.

Lemma spiReads_app (t u : list Event) : spiReads (t ++ u) = spiReads t ++ spiReads u.
Proof. unfold spiReads. apply flat_map_app. Qed.

Lemma getCurrent_spiReads {W : Type} (env : Env W) (w : W) (e : Err) :
  exists (r0 : list byte) (rs : list (list byte)),
    List.length rs = Z.to_nat N_SAMPLES
    /\ spiReads (trace (run env getCurrent w e)) = r0 :: rs
    /\ value (run env getCurrent w e) = currentOfSum (sumCodes rs)
    /\ 0 <= sumCodes rs <= MAX_SUM.
Proof.
  destruct (getCurrent_run env w e) as (r0 & rs & Hlen & Htr & Hval).
  exists r0, rs. rewrite Htr, Hval. repeat split; try assumption.
  - change (Ev (CP2130_selectCS 0) tt :: readEv r0 :: map readEv rs ++
              [SysEv (usleep 100) tt; Ev (CP2130_disableCS 0) tt])
      with ([Ev (CP2130_selectCS 0) tt] ++ map readEv (r0 :: rs) ++
              [SysEv (usleep 100) tt; Ev (CP2130_disableCS 0) tt]).
    rewrite !spiReads_app, spiReads_readEv. simpl. rewrite app_nil_r. reflexivity.
  - apply sumCodes_range.
  - pose proof (sumCodes_range rs) as Hr. rewrite Hlen in Hr.
    unfold MAX_SUM. change (Z.of_nat (Z.to_nat N_SAMPLES)) with N_SAMPLES in Hr. lia.
Qed.

(** C1: [getCurrent] makes exactly one raw ADC reading that it discards,
    followed by exactly 5 raw ADC readings; the value it returns is computed
    from the sum of the codes of these 5 and of nothing else, whatever the
    bridge delivers. *)
Theorem getCurrent_discards_one_sums_five {W : Type} (env : Env W) (w : W) (e : Err) :
  exists r0 r1 r2 r3 r4 r5 : list byte,
    trace (run env getCurrent w e) =
      [Ev (CP2130_selectCS 0) tt;
       readEv r0;
       readEv r1; readEv r2; readEv r3; readEv r4; readEv r5;
       SysEv (usleep 100) tt;
       Ev (CP2130_disableCS 0) tt]
    /\ value (run env getCurrent w e) =
         currentOfSum (rawCurrentCode r1 + rawCurrentCode r2 + rawCurrentCode r3
                       + rawCurrentCode r4 + rawCurrentCode r5).
Proof.
  destruct (getCurrent_run env w e) as (r0 & rs & Hlen & Htr & Hval).
  change (Z.to_nat N_SAMPLES) with 5%nat in Hlen.
  destruct rs as [|r1 [|r2 [|r3 [|r4 [|r5 [|r6 rs]]]]]]; try discriminate Hlen.
  exists r0, r1, r2, r3, r4, r5. split; [exact Htr|].
  rewrite Hval. f_equal. unfold sumCodes. cbn [map fold_right]. lia.
Qed.

(** C2: for the 5 raw codes sampled after the discard, [getCurrent] returns
    their sum divided by [4.0 * 5], that is by 20.0: the division is the one
    of [double], its result converted to [float]; the value returned is
    within a relative error of [2^-24] of the exact quotient. *)
Theorem getCurrent_average {W : Type} (env : Env W) (w : W) (e : Err) :
  exists (r0 : list byte) (rs : list (list byte)),
    spiReads (trace (run env getCurrent w e)) = r0 :: rs
    /\ List.length rs = 5%nat
    /\ value (run env getCurrent w e) =
         IEEE.float_of_double
           (IEEE.double_div (IEEE.double_of_Z (sumCodes rs)) (IEEE.double_of_Z 20))
    /\ (Qabs (IEEE.to_Q (value (run env getCurrent w e)) - (sumCodes rs # 20))
         <= (sumCodes rs # 20) * (1 # 2 ^ 24))%Q.
Proof.
  destruct (getCurrent_spiReads env w e) as (r0 & rs & Hlen & Hsp & Hval & Hsum).
  exists r0, rs. rewrite Hval. repeat split; try assumption.
  apply currentOfSum_facts. exact Hsum.
Qed.

(** Five readings of the same code [c] give [c / 4] exactly. *)
Lemma currentOfSum_same_code (c : Z) :
  0 <= c <= 4095 -> (IEEE.to_Q (currentOfSum (5 * c)) == c # 4)%Q.
Proof.
  intros Hc. rewrite currentOfSum_exact.
  - unfold Qeq. cbn [Qnum Qden]. lia.
  - unfold MAX_SUM, N_SAMPLES. lia.
  - rewrite Z.mul_comm. apply Z.mod_mul. lia.
Qed.

Lemma rawCurrentCode_sentinel (read : list byte) :
  rawCurrentCode read = if delivered read then rawCurrentCode read else 0.
Proof.
  unfold delivered, rawCurrentCode.
  destruct (Nat.eqb_spec (List.length read) 2) as [E|E]; [reflexivity|].
  destruct (Z.eqb_spec (Z.of_nat (List.length read)) 2); [lia | reflexivity].
Qed.

(** C6: a read that does not deliver 2 bytes makes [getRawCurrent] return 0;
    [getCurrent] over any mix of failed and delivered reads returns a finite
    value, computed from a sum to which every failed read contributes 0. *)
Theorem failed_reads_count_as_zero {W : Type} (env : Env W) (w : W) (e : Err) :
  value (run env getRawCurrent w e) =
    (let read := fst (fst (drv env (CP2130_spiRead 2 0x82 0x01) w e)) in
     if delivered read then rawCurrentCode read else 0)
  /\ exists (r0 : list byte) (rs : list (list byte)),
       spiReads (trace (run env getCurrent w e)) = r0 :: rs
       /\ List.length rs = 5%nat
       /\ value (run env getCurrent w e) =
            currentOfSum
              (fold_right Z.add 0
                 (map (fun r => if delivered r then rawCurrentCode r else 0) rs))
       /\ IEEE.is_finite (value (run env getCurrent w e)) = true.
Proof.
  split.
  - unroll. destruct (drv env (CP2130_spiRead 2 130 1) w e) as [[r w1] e1].
    unroll. apply rawCurrentCode_sentinel.
  - destruct (getCurrent_spiReads env w e) as (r0 & rs & Hlen & Hsp & Hval & Hsum).
    exists r0, rs. rewrite Hval. repeat split; try assumption.
    + f_equal. unfold sumCodes. f_equal. apply map_ext.
      intros r. apply rawCurrentCode_sentinel.
    + apply currentOfSum_facts. exact Hsum.
Qed.

(** C10: whatever the bridge answers, [getCurrent] returns a value between 0
    and 1023.75: every raw sample is a code of 12 bits, at most 4095. *)
Theorem getCurrent_range {W : Type} (env : Env W) (w : W) (e : Err) :
  Forall (fun r => 0 <= rawCurrentCode r <= 4095)
         (spiReads (trace (run env getCurrent w e)))
  /\ IEEE.is_finite (value (run env getCurrent w e)) = true
  /\ IEEE.leb (S754_zero false) (value (run env getCurrent w e)) = true
  /\ IEEE.leb (value (run env getCurrent w e)) (IEEE.float_of_scaled 4095 (-2)) = true
  /\ (0 <= IEEE.to_Q (value (run env getCurrent w e)) <= 4095 # 4)%Q.
Proof.
  destruct (getCurrent_spiReads env w e) as (r0 & rs & Hlen & Hsp & Hval & Hsum).
  rewrite Hval. split.
  - apply Forall_forall. intros r _. apply rawCurrentCode_range.
  - destruct (currentOfSum_facts _ Hsum) as (Hf & H0 & H1 & Hq & _). auto.
Qed.

(** ** The switch lines on the simulated bridge *)

(** What is needed of the bitmaps of [cp2130.h]: the bitmap of all GPIOs
    covers the one of GPIO.1 and the one of GPIO.2. *)
Hypothesis BMGPIOS_covers_BMGPIO1 : Z.land BMGPIOS BMGPIO1 <> 0.
Hypothesis BMGPIOS_covers_BMGPIO2 : Z.land BMGPIOS BMGPIO2 <> 0.

Arguments maskedLevel : simpl never.

Lemma land_lor_absorb_l (a b : Z) : Z.land (Z.lor a b) a = a.
Proof.
  apply Z.bits_inj'. intros n Hn.
  rewrite Z.land_spec, Z.lor_spec. destruct (Z.testbit a n), (Z.testbit b n); reflexivity.
Qed.

Lemma land_lor_absorb_r (a b : Z) : Z.land (Z.lor a b) b = b.
Proof. rewrite Z.lor_comm. apply land_lor_absorb_l. Qed.

(** [switchUSB(false)] drives GPIO.1 and GPIO.2 high. *)
Lemma maskedLevel_off_1 (old : bool) :
  maskedLevel BMGPIO1 (BMGPIOS * Z.b2z (negb false)) (Z.lor BMGPIO1 BMGPIO2) old = true.
Proof using BMGPIOS_covers_BMGPIO1 BMGPIOS_covers_BMGPIO2.
  unfold maskedLevel. rewrite land_lor_absorb_l.
  cbn [negb Z.b2z]. rewrite Z.mul_1_r.
  destruct (Z.eqb_spec BMGPIO1 0) as [E|E].
  - exfalso. apply BMGPIOS_covers_BMGPIO1. rewrite E. apply Z.land_0_r.
  - destruct (Z.eqb_spec (Z.land BMGPIOS BMGPIO1) 0); [contradiction | reflexivity].
Qed.

Lemma maskedLevel_off_2 (old : bool) :
  maskedLevel BMGPIO2 (BMGPIOS * Z.b2z (negb false)) (Z.lor BMGPIO1 BMGPIO2) old = true.
Proof using BMGPIOS_covers_BMGPIO1 BMGPIOS_covers_BMGPIO2.
  unfold maskedLevel. rewrite land_lor_absorb_r.
  cbn [negb Z.b2z]. rewrite Z.mul_1_r.
  destruct (Z.eqb_spec BMGPIO2 0) as [E|E].
  - exfalso. apply BMGPIOS_covers_BMGPIO2. rewrite E. apply Z.land_0_r.
  - destruct (Z.eqb_spec (Z.land BMGPIOS BMGPIO2) 0); [contradiction | reflexivity].
Qed.

(** Runs a program on the simulated bridge from an explicit state. *)
Ltac simulate :=
  cbn [run bind call syscall operands attach detach
       getUSBPowerStatus getUSBDataStatus switchUSB switchUSBData switchUSBPower
       sim drv sys sim_drv sim_sys transfer
       withGPIO withMiso withFaults withSlept
       gpio1 gpio2 gpio3 miso config faults slept
       value world err trace fst snd negb Bool.eqb xorb powerOn dataOn
       steps flat_map app];
  rewrite ?maskedLevel_off_1, ?maskedLevel_off_2.

(** Brings a state without pending faults to its explicit form. *)
Ltac explicit b Hf :=
  destruct b as [g1 g2 g3 m c f s]; cbn [faults] in Hf; subst f;
  unfold powerOn, dataOn in *; cbn [gpio1 gpio2] in *.

(** The run of [attach], whatever the order chosen for the operands of its
    first condition. *)
Lemma attach_run (o : EvalOrder) (b : Bridge) (e : Err) :
  faults b = [] ->
  let out := run sim (attach o) b e in
  steps (trace out) =
    (if xorb (powerOn b) (dataOn b)
     then attachSequence
     else if powerOn b
          then []
          else [PowerLine true; Wait 100000; DataLine true; Wait 100000])
  /\ powerOn (world out) = true
  /\ dataOn (world out) = true
  /\ faults (world out) = []
  /\ err out = e.
Proof using BMGPIOS_covers_BMGPIO1 BMGPIOS_covers_BMGPIO2.
  intros Hf. explicit b Hf.
  destruct o, g1, g2; simulate; repeat split; reflexivity.
Qed.

(** C3 (amended): on the simulated bridge, from a state in which exactly one
    of power and data is on, [attach] switches both lines off in one
    operation, waits 100 ms, enables power, waits 100 ms, enables data and
    waits 100 ms; from the all-off state it enables power, waits 100 ms,
    enables data and waits 100 ms, with no wait before power is enabled;
    from the state with both lines on it changes no line and does not wait. *)
Theorem attach_steps (o : EvalOrder) (b : Bridge) (e : Err) :
  faults b = [] ->
  steps (trace (run sim (attach o) b e)) =
    if xorb (powerOn b) (dataOn b)
    then attachSequence
    else if powerOn b
         then []
         else [PowerLine true; Wait 100000; DataLine true; Wait 100000].
Proof using BMGPIOS_covers_BMGPIO1 BMGPIOS_covers_BMGPIO2.
  intros Hf. apply (attach_run o b e Hf).
Qed.

(** C5: when power and data are both on as [attach] is called, [attach]
    changes no line: it issues no write to the GPIOs and no wait, and the
    state of the bridge after it is the state before it. *)
Theorem attach_both_on_changes_nothing (o : EvalOrder) (b : Bridge) (e : Err) :
  faults b = [] -> powerOn b = true -> dataOn b = true ->
  steps (trace (run sim (attach o) b e)) = []
  /\ world (run sim (attach o) b e) = b.
Proof.
  intros Hf Hp Hd. explicit b Hf.
  apply negb_true_iff in Hp, Hd. subst g1 g2.
  destruct o; simulate; split; reflexivity.
Qed.

(** C8: from each of the four configurations of the two lines, once [attach]
    has returned, [getUSBPowerStatus] and [getUSBDataStatus] both return
    true (the pins read back what was written, no transfer fails). *)
Theorem attach_establishes_attached (o : EvalOrder) (b : Bridge) (e : Err) :
  faults b = [] ->
  value (run sim (attach o ;;
                  power <- getUSBPowerStatus ;;
                  data <- getUSBDataStatus ;;
                  Ret (power, data)) b e) = (true, true).
Proof using BMGPIOS_covers_BMGPIO1 BMGPIOS_covers_BMGPIO2.
  intros Hf. rewrite run_bind. cbv zeta.
  destruct (attach_run o b e Hf) as (_ & Hp & Hd & Hf' & _).
  destruct (run sim (attach o) b e) as [[] b' e' t'].
  cbn [value world err] in *.
  explicit b' Hf'. simulate. rewrite Hp, Hd. reflexivity.
Qed.

(** The run of [detach] in any environment: the status of the data lines is
    read first and the lines are disconnected, with a wait, only if it is
    on; the status of VBUS is read next and VBUS is switched off, with a
    wait, only if it is on. *)
Lemma detach_trace {W : Type} (env : Env W) (w : W) (e : Err) :
  exists l2 l1 : bool,
    trace (run env detach w e) =
      Ev CP2130_getGPIO2 l2
      :: (if negb l2
          then [Ev (CP2130_setGPIO2 true) tt; SysEv (usleep 100000) tt]
          else [])
      ++ Ev CP2130_getGPIO1 l1
      :: (if negb l1
          then [Ev (CP2130_setGPIO1 true) tt; SysEv (usleep 100000) tt]
          else []).
Proof.
  unfold detach. unroll.
  destruct (drv env CP2130_getGPIO2 w e) as [[l2 w1] e1]. exists l2.
  destruct l2; unroll; answer;
    match goal with
    | |- context [Ev CP2130_getGPIO1 ?l] => exists l
    end; reflexivity.
Qed.

(** C4: from every state of the two lines, [detach] disconnects the data
    lines before it switches VBUS off, waits 100 ms after each of the two,
    and issues each of the two only if the line is on; both lines are off
    afterwards. *)
Theorem detach_steps (b : Bridge) (e : Err) :
  faults b = [] ->
  steps (trace (run sim detach b e)) =
    (if dataOn b then [DataLine false; Wait 100000] else [])
    ++ (if powerOn b then [PowerLine false; Wait 100000] else [])
  /\ powerOn (world (run sim detach b e)) = false
  /\ dataOn (world (run sim detach b e)) = false.
Proof.
  intros Hf. explicit b Hf.
  destruct g1, g2; simulate; repeat split; reflexivity.
Qed.

(** C9: the setters and the getters agree through the active-low encoding:
    after [switchUSBPower(v)], [getUSBPowerStatus] returns [v]; after
    [switchUSBData(v)], [getUSBDataStatus] returns [v]. *)
Theorem switch_status_roundtrip (v : bool) (b : Bridge) (e : Err) :
  faults b = [] ->
  value (run sim (switchUSBPower v ;; getUSBPowerStatus) b e) = v
  /\ value (run sim (switchUSBData v ;; getUSBDataStatus) b e) = v.
Proof.
  intros Hf. explicit b Hf.
  split; simulate; apply negb_involutive.
Qed.

(** ** Error reporting *)

Lemma string_app_assoc (a b c : string) :
  ((a ++ b) ++ c = a ++ (b ++ c))%string.
Proof.
  induction a as [|ch a IH]; simpl; [reflexivity|]. rewrite IH. reflexivity.
Qed.

Lemma string_app_empty_r (a : string) : (a ++ "" = a)%string.
Proof.
  induction a as [|ch a IH]; simpl; [reflexivity|]. rewrite IH. reflexivity.
Qed.

Lemma accumulated_refl (e : Err) : accumulated e e.
Proof.
  split; [lia|]. exists EmptyString. symmetry. apply string_app_empty_r.
Qed.

Lemma accumulated_trans (e1 e2 e3 : Err) :
  accumulated e1 e2 -> accumulated e2 e3 -> accumulated e1 e3.
Proof.
  intros [Hc12 [s12 Hs12]] [Hc23 [s23 Hs23]]. split; [lia|].
  exists (s12 ++ s23)%string. rewrite Hs23, Hs12. apply string_app_assoc.
Qed.

(** No member function writes the counter or the message itself: what a run
    does to them is what the calls of the bridge did. *)
Lemma run_accumulated {W A : Type} (env : Env W) (p : Prog A) :
  accumulating env ->
  forall (w : W) (e : Err), accumulated e (err (run env p w e)).
Proof.
  intros Hacc.
  induction p as [a | X op k IH | X op k IH]; intros w e; cbn [run].
  - apply accumulated_refl.
  - pose proof (Hacc X op w e) as Hop.
    destruct (drv env op w e) as [[x w1] e1]. cbn [snd err] in *.
    apply (accumulated_trans e e1); [exact Hop | apply IH].
  - destruct (sys env op w) as [x w1]. cbn [err]. apply IH.
Qed.

(** No member function reads the counter or the message: the calls made do
    not depend on them. *)
Lemma run_errorBlind {W A : Type} (env : Env W) (p : Prog A) :
  errorBlind env ->
  forall (w : W) (e e' : Err),
    value (run env p w e) = value (run env p w e')
    /\ world (run env p w e) = world (run env p w e')
    /\ trace (run env p w e) = trace (run env p w e').
Proof.
  intros Hblind.
  induction p as [a | X op k IH | X op k IH]; intros w e e'; cbn [run].
  - auto.
  - pose proof (Hblind X op w e e') as Hop.
    destruct (drv env op w e) as [[x w1] e1].
    destruct (drv env op w e') as [[x' w1'] e1'].
    cbn [fst] in Hop. injection Hop as -> ->.
    cbn [value world trace].
    destruct (IH x' w1' e1 e1') as (Hv & Hw & Ht). rewrite Hv, Hw, Ht. auto.
  - destruct (sys env op w) as [x w1]. cbn [value world trace].
    destruct (IH x w1 e e') as (Hv & Hw & Ht). rewrite Hv, Hw, Ht. auto.
Qed.

Lemma transfer_accumulated (b : Bridge) (e : Err) :
  accumulated e (snd (transfer b e)).
Proof.
  unfold transfer. destruct (faults b) as [|[f|] fs]; cbn [snd].
  - apply accumulated_refl.
  - split; cbn [errcnt errstr]; [lia|]. exists (message f). reflexivity.
  - apply accumulated_refl.
Qed.

Lemma sim_drv_err (X : Type) (op : Op X) (b : Bridge) (e : Err) :
  snd (sim_drv X op b e) = snd (transfer b e).
Proof.
  unfold sim_drv. destruct (transfer b e) as [[f b1] e1].
  destruct op; cbn [snd]; try reflexivity.
  destruct f; [reflexivity|]. destruct (miso b1); reflexivity.
Qed.

Lemma sim_accumulating : accumulating sim.
Proof.
  intros X op b e. cbn [sim drv]. rewrite sim_drv_err. apply transfer_accumulated.
Qed.

Lemma sim_errorBlind : errorBlind sim.
Proof.
  intros X op b e e'. cbn [sim drv]. unfold sim_drv, transfer.
  destruct (faults b) as [|[f|] fs]; destruct op; cbn [fst]; try reflexivity;
    match goal with
    | |- context [miso ?b1] => destruct (miso b1); reflexivity
    end.
Qed.

(** * Further properties *)

(** ** The raw code and the conversion *)

Lemma assembleCheck_all :
  allFrom 256 0 (fun a => allFrom 256 0 (assembleCheck a)) = true.
Proof. vm_compute. reflexivity. Qed.

(** X1: the code of a reading of 2 bytes is the upper 12 bits of the 16 bit word
    whose high byte came first: the low 4 bits of the second byte are
    dropped, and the cast to [uint16_t] cuts nothing off. *)
Theorem rawCurrentCode_upper_12_bits (b0 b1 : byte) :
  rawCurrentCode [b0; b1] = (256 * byteval b0 + byteval b1) / 16.
Proof.
  pose proof (byteval_range b0) as H0. pose proof (byteval_range b1) as H1.
  unfold rawCurrentCode. cbn [List.length nth Z.of_nat Pos.of_succ_nat Pos.succ Z.eqb Pos.eqb].
  apply Z.eqb_eq.
  change (assembleCheck (byteval b0) (byteval b1) = true).
  apply (allFrom_spec (assembleCheck (byteval b0)) 256 0); [|simpl; lia].
  apply (allFrom_spec (fun a => allFrom 256 0 (assembleCheck a)) 256 0 assembleCheck_all).
  simpl. lia.
Qed.

Lemma stepCheck_all : allFrom (Z.to_nat MAX_SUM) 0 stepCheck = true.
Proof. vm_compute. reflexivity. Qed.

Lemma currentOfSum_step (s : Z) :
  0 <= s < MAX_SUM ->
  (IEEE.to_Q (currentOfSum s) < IEEE.to_Q (currentOfSum (s + 1)))%Q.
Proof.
  intros Hs.
  assert (H : stepCheck s = true).
  { apply (allFrom_spec stepCheck _ 0 stepCheck_all).
    rewrite Z2Nat.id by (unfold MAX_SUM, N_SAMPLES; lia). lia. }
  unfold stepCheck in H. apply negb_true_iff in H.
  apply Qnot_le_lt. intros Hle. apply Qle_bool_iff in Hle. congruence.
Qed.

(** X2: the conversion loses no resolution: of two sums of [N_SAMPLES] codes, the
    larger gives the strictly larger current. *)
Theorem currentOfSum_increasing (s t : Z) :
  0 <= s -> s < t -> t <= MAX_SUM ->
  (IEEE.to_Q (currentOfSum s) < IEEE.to_Q (currentOfSum t))%Q.
Proof.
  intros Hs Hst Ht.
  replace t with (s + 1 + Z.of_nat (Z.to_nat (t - s - 1))) by lia.
  assert (Hn : s + 1 + Z.of_nat (Z.to_nat (t - s - 1)) <= MAX_SUM) by lia.
  induction (Z.to_nat (t - s - 1)) as [|n IH].
  - rewrite Z.add_0_r. apply currentOfSum_step. simpl in Hn. lia.
  - apply (Qlt_trans _ (IEEE.to_Q (currentOfSum (s + 1 + Z.of_nat n)))).
    + apply IH. lia.
    + replace (s + 1 + Z.of_nat (S n)) with (s + 1 + Z.of_nat n + 1) by lia.
      apply currentOfSum_step. lia.
Qed.

Lemma sumCodes_constant (c : Z) (rs : list (list byte)) :
  forallb (fun r => rawCurrentCode r =? c) rs = true ->
  sumCodes rs = Z.of_nat (List.length rs) * c.
Proof.
  unfold sumCodes. induction rs as [|r rs IH]; intros Hall.
  - reflexivity.
  - cbn [forallb] in Hall. apply andb_true_iff in Hall. destruct Hall as [Hr Hrs].
    apply Z.eqb_eq in Hr. cbn [map fold_right List.length].
    rewrite (IH Hrs), Hr. lia.
Qed.

(** X3: when the 5 readings that are summed all give the code [c], [getCurrent]
    returns [c / 4] itself, with no rounding. *)
Theorem getCurrent_constant_reading {W : Type} (env : Env W) (w : W) (e : Err) (c : Z) :
  forallb (fun r => rawCurrentCode r =? c)
          (tl (spiReads (trace (run env getCurrent w e)))) = true ->
  (IEEE.to_Q (value (run env getCurrent w e)) == c # 4)%Q.
Proof.
  destruct (getCurrent_spiReads env w e) as (r0 & rs & Hlen & Hsp & Hval & Hsum).
  rewrite Hsp, Hval. cbn [tl]. intros Hall.
  rewrite (sumCodes_constant c rs Hall), Hlen.
  change (Z.of_nat (Z.to_nat N_SAMPLES)) with 5.
  apply currentOfSum_same_code.
  destruct rs as [|r rs']; [discriminate Hlen|].
  cbn [forallb] in Hall. apply andb_true_iff in Hall. destruct Hall as [Hr _].
  apply Z.eqb_eq in Hr. rewrite <- Hr. apply rawCurrentCode_range.
Qed.

(** X4: when none of the 5 readings that are summed delivers its 2 bytes,
    [getCurrent] returns [+0.0]. *)
Theorem getCurrent_all_reads_failed {W : Type} (env : Env W) (w : W) (e : Err) :
  forallb (fun r => negb (delivered r))
          (tl (spiReads (trace (run env getCurrent w e)))) = true ->
  value (run env getCurrent w e) = S754_zero false.
Proof.
  destruct (getCurrent_spiReads env w e) as (r0 & rs & Hlen & Hsp & Hval & Hsum).
  rewrite Hsp, Hval. cbn [tl]. intros Hall.
  rewrite (sumCodes_constant 0 rs).
  - rewrite Z.mul_0_r. reflexivity.
  - clear - Hall. induction rs as [|r rs IH]; [reflexivity|].
    cbn [forallb] in *. apply andb_true_iff in Hall. destruct Hall as [Hr Hrs].
    rewrite (IH Hrs), andb_true_r. apply Z.eqb_eq.
    rewrite rawCurrentCode_sentinel. apply negb_true_iff in Hr. rewrite Hr. reflexivity.
Qed.

(** ** Calls in any environment *)

(** Unfolds a member function down to its calls. *)
Ltac calls :=
  cbn [invoke session attach detach setup getCurrent
       disconnected isOpen close open reset listDevices
       getManufacturerDesc getProductDesc getSerialDesc getUSBConfig
       run bind call syscall operands getRawCurrent sampleLoop
       getUSBPowerStatus getUSBDataStatus getOvercurrentStatus
       switchUSB switchUSBData switchUSBPower
       value world err trace fst snd app map negb Bool.eqb Z.b2z].

Lemma steps_app (t u : list Event) : steps (t ++ u) = steps t ++ steps u.
Proof. unfold steps. apply flat_map_app. Qed.

Lemma steps_readEv (rs : list (list byte)) : steps (map readEv rs) = [].
Proof. induction rs as [|r rs IH]; [reflexivity | exact IH]. Qed.

Lemma csTrack_app (t u : list Event) :
  forall selected : bool,
    csTrack selected (t ++ u) =
      match csTrack selected t with
      | Some selected' => csTrack selected' u
      | None => None
      end.
Proof.
  induction t as [|ev t IH]; intros selected; [reflexivity|].
  cbn [app csTrack]. destruct ev as [X op ret | X op ret]; [|apply IH].
  destruct op; try apply IH. destruct selected; [apply IH | reflexivity].
Qed.

Lemma csTrack_readEv (rs : list (list byte)) (u : list Event) :
  csTrack true (map readEv rs ++ u) = csTrack true u.
Proof. induction rs as [|r rs IH]; [reflexivity | exact IH]. Qed.

Lemma invoke_csTrack {W : Type} (env : Env W) (m : Method) (w : W) (e : Err) :
  csTrack false (trace (run env (invoke m) w e)) = Some false.
Proof.
  destruct m as [| |o| | | | | | | | | | | | | | | | |];
    try (try destruct o; calls; answer; reflexivity).
  cbn [invoke]. rewrite run_bind. cbn [trace run]. rewrite app_nil_r.
  destruct (getCurrent_run env w e) as (r0 & rs & _ & Htr & _). rewrite Htr.
  cbn [csTrack Z.eqb]. change (readEv r0 :: ?l) with (map readEv [r0] ++ l).
  rewrite !csTrack_readEv. reflexivity.
Qed.

(** X5: over any sequence of calls and whatever the bridge answers, every SPI
    read is made while the chip select of channel 0 is selected, and the chip
    select is released when the calls have returned. *)
Theorem chip_select_discipline {W : Type} (env : Env W) (ms : list Method)
    (w : W) (e : Err) :
  csTrack false (trace (run env (session ms) w e)) = Some false.
Proof.
  revert w e. induction ms as [|m ms IH]; intros w e; [reflexivity|].
  cbn [session]. rewrite run_bind. cbn [trace].
  rewrite csTrack_app, invoke_csTrack. apply IH.
Qed.

(** X6: whatever the bridge answers, [attach] does one of four things: nothing;
    both lines off and a wait; power on, a wait, data on, a wait; or the
    three in a row.  It never connects the data lines unless it has switched
    VBUS on 100 ms before, and never switches one line off alone. *)
Theorem attach_steps_any_answers {W : Type} (env : Env W) (o : EvalOrder)
    (w : W) (e : Err) :
  In (steps (trace (run env (attach o) w e)))
     [ [];
       [Lines (BMGPIOS * 1) (Z.lor BMGPIO1 BMGPIO2); Wait 100000];
       [PowerLine true; Wait 100000; DataLine true; Wait 100000];
       attachSequence ].
Proof.
  unfold attachSequence.
  destruct o; calls; answer; cbn [steps flat_map app negb In]; auto 6.
Qed.

(** X7: whatever the bridge answers, [detach] switches no line on, and does not
    switch VBUS off before it has dealt with the data lines. *)
Theorem detach_steps_any_answers {W : Type} (env : Env W) (w : W) (e : Err) :
  In (steps (trace (run env detach w e)))
     [ [];
       [DataLine false; Wait 100000];
       [PowerLine false; Wait 100000];
       [DataLine false; Wait 100000; PowerLine false; Wait 100000] ].
Proof.
  calls; answer; cbn [steps flat_map app negb In]; auto 6.
Qed.

(** X8: the time the member functions block: at most 300 ms in [attach], at most
    200 ms in [detach], 100 us in [getCurrent] and 1.1 ms in [setup],
    whatever the bridge answers. *)
Theorem blocking_time {W : Type} (env : Env W) (o : EvalOrder) (w : W) (e : Err) :
  0 <= totalWait (steps (trace (run env (attach o) w e))) <= 300000
  /\ 0 <= totalWait (steps (trace (run env detach w e))) <= 200000
  /\ totalWait (steps (trace (run env getCurrent w e))) = 100
  /\ totalWait (steps (trace (run env setup w e))) = 1100.
Proof.
  split; [|split; [|split]].
  - destruct o; calls; answer; cbn [steps flat_map app negb totalWait fold_right]; lia.
  - calls; answer; cbn [steps flat_map app negb totalWait fold_right]; lia.
  - destruct (getCurrent_run env w e) as (r0 & rs & _ & Htr & _). rewrite Htr.
    change (Ev (CP2130_selectCS 0) tt :: readEv r0 :: map readEv rs ++ ?l)
      with ([Ev (CP2130_selectCS 0) tt] ++ map readEv (r0 :: rs) ++ l).
    rewrite !steps_app, steps_readEv. reflexivity.
  - calls; answer; reflexivity.
Qed.

Lemma invoke_query_lineChanges {W : Type} (env : Env W) (m : Method) (w : W) (e : Err) :
  isQuery m = true ->
  lineChanges (steps (trace (run env (invoke m) w e))) = [].
Proof.
  destruct m as [| |o| | | | | | | | | | | | | | | | |]; intros Hq;
    try discriminate Hq;
    try (calls; answer; reflexivity).
  cbn [invoke]. rewrite run_bind. cbn [trace run]. rewrite app_nil_r.
  destruct (getCurrent_run env w e) as (r0 & rs & _ & Htr & _). rewrite Htr.
  change (Ev (CP2130_selectCS 0) tt :: readEv r0 :: map readEv rs ++ ?l)
    with ([Ev (CP2130_selectCS 0) tt] ++ map readEv (r0 :: rs) ++ l).
  rewrite !steps_app, steps_readEv. reflexivity.
Qed.

(** X9: querying and measuring leave the switch alone: over any sequence of calls
    other than [attach], [detach], the three [switchUSB] functions and
    [reset], no GPIO is written, whatever the bridge answers. *)
Theorem queries_write_no_line {W : Type} (env : Env W) (ms : list Method)
    (w : W) (e : Err) :
  forallb isQuery ms = true ->
  lineChanges (steps (trace (run env (session ms) w e))) = [].
Proof.
  revert w e. induction ms as [|m ms IH]; intros w e Hq; [reflexivity|].
  cbn [forallb] in Hq. apply andb_true_iff in Hq. destruct Hq as [Hm Hms].
  cbn [session]. rewrite run_bind. cbn [trace].
  pose proof (invoke_query_lineChanges env m w e Hm) as Hfirst.
  specialize (IH (world (run env (invoke m) w e)) (err (run env (invoke m) w e)) Hms).
  unfold lineChanges in *. rewrite steps_app, filter_app, Hfirst. exact IH.
Qed.

(** ** Calls on the simulated bridge *)

(** [switchUSB(true)] drives GPIO.1 and GPIO.2 low. *)
Lemma maskedLevel_on_1 (old : bool) :
  maskedLevel BMGPIO1 (BMGPIOS * Z.b2z (negb true)) (Z.lor BMGPIO1 BMGPIO2) old = false.
Proof using BMGPIOS_covers_BMGPIO1.
  unfold maskedLevel. rewrite land_lor_absorb_l.
  cbn [negb Z.b2z]. rewrite Z.mul_0_r.
  destruct (Z.eqb_spec BMGPIO1 0) as [E|E].
  - exfalso. apply BMGPIOS_covers_BMGPIO1. rewrite E. apply Z.land_0_r.
  - reflexivity.
Qed.

Lemma maskedLevel_on_2 (old : bool) :
  maskedLevel BMGPIO2 (BMGPIOS * Z.b2z (negb true)) (Z.lor BMGPIO1 BMGPIO2) old = false.
Proof using BMGPIOS_covers_BMGPIO2.
  unfold maskedLevel. rewrite land_lor_absorb_r.
  cbn [negb Z.b2z]. rewrite Z.mul_0_r.
  destruct (Z.eqb_spec BMGPIO2 0) as [E|E].
  - exfalso. apply BMGPIOS_covers_BMGPIO2. rewrite E. apply Z.land_0_r.
  - reflexivity.
Qed.

(** Runs a program on the simulated bridge from an explicit state, the
    joint switch included. *)
Ltac simulateAll :=
  cbn [run bind call syscall operands attach detach
       getUSBPowerStatus getUSBDataStatus getOvercurrentStatus
       switchUSB switchUSBData switchUSBPower
       sim drv sys sim_drv sim_sys transfer
       withGPIO withMiso withFaults withSlept
       gpio1 gpio2 gpio3 miso config faults slept
       value world err trace fst snd negb Bool.eqb xorb powerOn dataOn
       steps flat_map app];
  rewrite ?maskedLevel_off_1, ?maskedLevel_off_2,
          ?maskedLevel_on_1, ?maskedLevel_on_2.

(** X10: after [switchUSB(v)] the status of VBUS and the status of the data lines
    are both [v], and the overcurrent flag reads as before. *)
Theorem switchUSB_sets_both (v : bool) (b : Bridge) (e : Err) :
  faults b = [] ->
  value (run sim (switchUSB v ;;
                  power <- getUSBPowerStatus ;;
                  data <- getUSBDataStatus ;;
                  overcurrent <- getOvercurrentStatus ;;
                  Ret (power, data, overcurrent)) b e)
  = (v, v, negb (gpio3 b)).
Proof using BMGPIOS_covers_BMGPIO1 BMGPIOS_covers_BMGPIO2.
  intros Hf. explicit b Hf. destruct v; simulateAll; reflexivity.
Qed.

(** X11: [switchUSBPower] leaves the status of the data lines and the overcurrent
    flag as they were; [switchUSBData] leaves the status of VBUS and the
    overcurrent flag as they were. *)
Theorem switch_one_line_only (v : bool) (b : Bridge) (e : Err) :
  faults b = [] ->
  value (run sim (switchUSBPower v ;;
                  data <- getUSBDataStatus ;;
                  overcurrent <- getOvercurrentStatus ;;
                  Ret (data, overcurrent)) b e)
  = (dataOn b, negb (gpio3 b))
  /\ value (run sim (switchUSBData v ;;
                     power <- getUSBPowerStatus ;;
                     overcurrent <- getOvercurrentStatus ;;
                     Ret (power, overcurrent)) b e)
     = (powerOn b, negb (gpio3 b)).
Proof.
  intros Hf. explicit b Hf. split; simulateAll; reflexivity.
Qed.

(** X12: a second [attach] right after an [attach], and a second [detach] right
    after a [detach], change no line and do not wait. *)
Theorem attach_detach_idempotent (o o' : EvalOrder) (b : Bridge) (e : Err) :
  faults b = [] ->
  steps (trace (run sim (attach o ;; attach o') b e))
  = steps (trace (run sim (attach o) b e))
  /\ steps (trace (run sim (detach ;; detach) b e))
     = steps (trace (run sim detach b e)).
Proof using BMGPIOS_covers_BMGPIO1 BMGPIOS_covers_BMGPIO2.
  intros Hf. explicit b Hf.
  split; destruct o, o', g1, g2; simulateAll; reflexivity.
Qed.

(** X13: from every state of the two lines, [attach] after a [detach] switches
    VBUS on, waits, connects the data lines and waits, with no joint
    switch-off; [detach] after an [attach] disconnects the data lines, waits,
    switches VBUS off and waits. *)
Theorem detach_attach_cycle (o : EvalOrder) (b : Bridge) (e : Err) :
  faults b = [] ->
  steps (trace (run sim (detach ;; attach o) b e))
  = steps (trace (run sim detach b e))
    ++ [PowerLine true; Wait 100000; DataLine true; Wait 100000]
  /\ steps (trace (run sim (attach o ;; detach) b e))
     = steps (trace (run sim (attach o) b e))
       ++ [DataLine false; Wait 100000; PowerLine false; Wait 100000].
Proof using BMGPIOS_covers_BMGPIO1 BMGPIOS_covers_BMGPIO2.
  intros Hf. explicit b Hf.
  split; destruct o, g1, g2; simulateAll; reflexivity.
Qed.

Lemma sim_drv_faults_empty (X : Type) (op : Op X) (b : Bridge) (e : Err) :
  faults b = [] ->
  faults (snd (fst (sim_drv X op b e))) = [].
Proof.
  intros Hf. unfold sim_drv, transfer. rewrite Hf.
  destruct op; cbn [fst snd withGPIO faults]; try exact Hf.
  destruct (miso b); cbn [fst snd withMiso faults]; exact Hf.
Qed.

Lemma sim_faults_empty {A : Type} (p : Prog A) :
  forall (b : Bridge) (e : Err),
    faults b = [] -> faults (world (run sim p b e)) = [].
Proof.
  induction p as [a | X op k IH | X op k IH]; intros b e Hf; cbn [run].
  - exact Hf.
  - cbn [sim drv]. pose proof (sim_drv_faults_empty X op b e Hf) as H1.
    destruct (sim_drv X op b e) as [[x b1] e1]. cbn [world]. apply IH. exact H1.
  - cbn [sim sys]. destruct op; cbn [sim_sys world]; apply IH; exact Hf.
Qed.

(** A call that writes no GPIO leaves GPIO.1 and GPIO.2 at their levels. *)
Lemma sim_drv_unwritten (X : Type) (op : Op X) (x : X) (b : Bridge) (e : Err) :
  lineChanges (steps [Ev op x]) = [] ->
  gpio1 (snd (fst (sim_drv X op b e))) = gpio1 b
  /\ gpio2 (snd (fst (sim_drv X op b e))) = gpio2 b.
Proof.
  intros Hno. unfold sim_drv, transfer.
  destruct op; try discriminate Hno;
    destruct (faults b) as [|[f|] fs];
    cbn [fst snd withFaults withMiso miso gpio1 gpio2]; auto;
    destruct (miso b); cbn [fst snd withMiso withFaults miso gpio1 gpio2]; auto.
Qed.

Lemma sim_unwritten {A : Type} (p : Prog A) :
  forall (b : Bridge) (e : Err),
    lineChanges (steps (trace (run sim p b e))) = [] ->
    gpio1 (world (run sim p b e)) = gpio1 b
    /\ gpio2 (world (run sim p b e)) = gpio2 b.
Proof.
  induction p as [a | X op k IH | X op k IH]; intros b e Hno; cbn [run] in *.
  - auto.
  - cbn [sim drv] in *.
    pose proof (fun x => sim_drv_unwritten X op x b e) as Hop.
    destruct (sim_drv X op b e) as [[x b1] e1]. cbn [world trace fst snd] in *.
    change (Ev op x :: ?t) with ([Ev op x] ++ t) in Hno.
    unfold lineChanges in Hno. rewrite steps_app, filter_app in Hno.
    apply app_eq_nil in Hno. destruct Hno as [Hhead Htail].
    destruct (Hop x Hhead) as [H1 H2]. destruct (IH x b1 e1 Htail) as [H3 H4].
    split; congruence.
  - cbn [sim sys] in *. destruct op; cbn [sim_sys world trace] in *;
      match goal with
      | H : lineChanges (steps (SysEv ?op ?x :: ?t)) = [] |- _ =>
          change (SysEv op x :: t) with ([SysEv op x] ++ t) in H;
          unfold lineChanges in H; rewrite steps_app, filter_app in H;
          apply app_eq_nil in H; destruct H as [_ Htail];
          destruct (IH _ _ e Htail) as [H3 H4]
      end; split; assumption.
Qed.

Lemma invoke_keeps_together (m : Method) (b : Bridge) (e : Err) :
  faults b = [] -> powerOn b = dataOn b -> keepsLinesTogether m = true ->
  powerOn (world (run sim (invoke m) b e)) = dataOn (world (run sim (invoke m) b e))
  /\ faults (world (run sim (invoke m) b e)) = [].
Proof using BMGPIOS_covers_BMGPIO1 BMGPIOS_covers_BMGPIO2.
  intros Hf Hpd Hk.
  split; [|apply sim_faults_empty; exact Hf].
  destruct (isQuery m) eqn:Hq.
  - pose proof (invoke_query_lineChanges sim m b e Hq) as Hno.
    destruct (sim_unwritten (invoke m) b e Hno) as [H1 H2].
    unfold powerOn, dataOn in *. rewrite H1, H2. exact Hpd.
  - destruct m; try discriminate Hk; try discriminate Hq; cbn [invoke].
    + destruct (attach_run o b e Hf) as (_ & Hp & Hd & _). cbv zeta in Hp, Hd.
      rewrite Hp, Hd. reflexivity.
    + explicit b Hf. destruct g1, g2; simulateAll; reflexivity.
    + explicit b Hf.
      match goal with |- context [switchUSB ?v] => destruct v end;
        simulateAll; reflexivity.
Qed.

(** X14: VBUS and the data lines stay in the same state, on or off, over any
    sequence of calls that begins with the two in the same state and calls
    neither [switchUSBPower], [switchUSBData] nor [reset]. *)
Theorem lines_stay_together (ms : list Method) (b : Bridge) (e : Err) :
  faults b = [] -> powerOn b = dataOn b ->
  forallb keepsLinesTogether ms = true ->
  powerOn (world (run sim (session ms) b e))
  = dataOn (world (run sim (session ms) b e)).
Proof using BMGPIOS_covers_BMGPIO1 BMGPIOS_covers_BMGPIO2.
  revert b e. induction ms as [|m ms IH]; intros b e Hf Hpd Hk; [exact Hpd|].
  cbn [forallb] in Hk. apply andb_true_iff in Hk. destruct Hk as [Hm Hms].
  cbn [session]. rewrite run_bind. cbn [world].
  destruct (invoke_keeps_together m b e Hf Hpd Hm) as [Hpd' Hf'].
  apply IH; assumption.
Qed.

(** ** Failed transfers *)












End ITUSB1Device.

(** * Instances

    The statements above at a fixture whose bitmaps are [0x0010] for GPIO.1,
    [0x0020] for GPIO.2 and [0x7df8] for all GPIOs, and whose USB
    configuration carries no data. *)

(** C3, as first stated, fails from the all-off state: the first step of
    [attach] is then the switch of VBUS, with no wait before it, and the
    steps are not the sequence of a full attachment. *)
Lemma attach_all_off_no_wait_before_power :
  steps unit
    (trace unit (Bridge unit) unit
       (run unit (sim unit 0x0010 0x0020)
          (attach unit 0x0010 0x0020 0x7df8 LeftFirst)
          (mkBridge unit true true true [] tt [] 0)
          (mkErr 0 EmptyString)))
  = [PowerLine true; Wait 100000; DataLine true; Wait 100000]
  /\ steps unit
       (trace unit (Bridge unit) unit
          (run unit (sim unit 0x0010 0x0020)
             (attach unit 0x0010 0x0020 0x7df8 LeftFirst)
             (mkBridge unit true true true [] tt [] 0)
             (mkErr 0 EmptyString)))
     <> attachSequence 0x0010 0x0020 0x7df8.
Proof.
  split; [reflexivity|]. vm_compute. intros H. discriminate H.
Qed.

(** [attach] with the data lines on and VBUS off. *)
Lemma attach_steps_witness :
  Z.land 0x7df8 0x0010 <> 0
  /\ Z.land 0x7df8 0x0020 <> 0
  /\ steps unit
       (trace unit (Bridge unit) unit
          (run unit (sim unit 0x0010 0x0020)
             (attach unit 0x0010 0x0020 0x7df8 RightFirst)
             (mkBridge unit true false true [] tt [] 0)
             (mkErr 0 EmptyString)))
     = [Lines 0x7df8 0x0030; Wait 100000;
        PowerLine true; Wait 100000; DataLine true; Wait 100000].
Proof.
  assert (H1 : Z.land 0x7df8 0x0010 <> 0) by (vm_compute; lia).
  assert (H2 : Z.land 0x7df8 0x0020 <> 0) by (vm_compute; lia).
  split; [exact H1|]. split; [exact H2|].
  exact (attach_steps unit 0x0010 0x0020 0x7df8 H1 H2 RightFirst
           (mkBridge unit true false true [] tt [] 0)
           (mkErr 0 EmptyString) eq_refl).
Defined.

(** [detach] with both lines on. *)
Lemma detach_steps_witness :
  steps unit
    (trace unit (Bridge unit) unit
       (run unit (sim unit 0x0010 0x0020) (detach unit)
          (mkBridge unit false false true [] tt [] 0)
          (mkErr 0 EmptyString)))
  = [DataLine false; Wait 100000; PowerLine false; Wait 100000]
  /\ powerOn unit
       (world unit (Bridge unit) unit
          (run unit (sim unit 0x0010 0x0020) (detach unit)
             (mkBridge unit false false true [] tt [] 0)
             (mkErr 0 EmptyString))) = false
  /\ dataOn unit
       (world unit (Bridge unit) unit
          (run unit (sim unit 0x0010 0x0020) (detach unit)
             (mkBridge unit false false true [] tt [] 0)
             (mkErr 0 EmptyString))) = false.
Proof.
  exact (detach_steps unit 0x0010 0x0020
           (mkBridge unit false false true [] tt [] 0)
           (mkErr 0 EmptyString) eq_refl).
Defined.

(** [attach] with both lines on. *)
Lemma attach_both_on_changes_nothing_witness :
  steps unit
    (trace unit (Bridge unit) unit
       (run unit (sim unit 0x0010 0x0020)
          (attach unit 0x0010 0x0020 0x7df8 LeftFirst)
          (mkBridge unit false false true [] tt [] 0)
          (mkErr 0 EmptyString)))
  = []
  /\ world unit (Bridge unit) unit
       (run unit (sim unit 0x0010 0x0020)
          (attach unit 0x0010 0x0020 0x7df8 LeftFirst)
          (mkBridge unit false false true [] tt [] 0)
          (mkErr 0 EmptyString))
     = mkBridge unit false false true [] tt [] 0.
Proof.
  exact (attach_both_on_changes_nothing unit 0x0010 0x0020 0x7df8 LeftFirst
           (mkBridge unit false false true [] tt [] 0)
           (mkErr 0 EmptyString) eq_refl eq_refl eq_refl).
Defined.

(** [attach] with VBUS on and the data lines off, then the two status
    reads. *)
Lemma attach_establishes_attached_witness :
  Z.land 0x7df8 0x0010 <> 0
  /\ Z.land 0x7df8 0x0020 <> 0
  /\ value unit (Bridge unit) (bool * bool)
       (run unit (sim unit 0x0010 0x0020)
          (bind unit (attach unit 0x0010 0x0020 0x7df8 LeftFirst)
             (fun _ =>
                bind unit (getUSBPowerStatus unit)
                  (fun power =>
                     bind unit (getUSBDataStatus unit)
                       (fun data => Ret unit (bool * bool) (power, data)))))
          (mkBridge unit false true true [] tt [] 0)
          (mkErr 0 EmptyString))
     = (true, true).
Proof.
  assert (H1 : Z.land 0x7df8 0x0010 <> 0) by (vm_compute; lia).
  assert (H2 : Z.land 0x7df8 0x0020 <> 0) by (vm_compute; lia).
  split; [exact H1|]. split; [exact H2|].
  exact (attach_establishes_attached unit 0x0010 0x0020 0x7df8 H1 H2 LeftFirst
           (mkBridge unit false true true [] tt [] 0)
           (mkErr 0 EmptyString) eq_refl).
Defined.

(** Switching VBUS and the data lines off from the attached state, each
    followed by its status read. *)
Lemma switch_status_roundtrip_witness :
  value unit (Bridge unit) bool
    (run unit (sim unit 0x0010 0x0020)
       (bind unit (switchUSBPower unit false) (fun _ => getUSBPowerStatus unit))
       (mkBridge unit false false true [] tt [] 0)
       (mkErr 0 EmptyString))
  = false
  /\ value unit (Bridge unit) bool
       (run unit (sim unit 0x0010 0x0020)
          (bind unit (switchUSBData unit false) (fun _ => getUSBDataStatus unit))
          (mkBridge unit false false true [] tt [] 0)
          (mkErr 0 EmptyString))
     = false.
Proof.
  exact (switch_status_roundtrip unit 0x0010 0x0020 false
           (mkBridge unit false false true [] tt [] 0)
           (mkErr 0 EmptyString) eq_refl).
Defined.

(** A measurement during which the third reading and the release of the chip
    select fail: both failures are counted and reported, all nine calls are
    made, and the reading that failed counts as 0 in the sum:
    [(410 + 0 + 410 + 410 + 410) / 20 = 82]. *)
Example getCurrent_past_failed_transfers :
  let o :=
    run unit (sim unit 0x0010 0x0020) (getCurrent unit)
      (mkBridge unit true true true
         [[x19; xa7]; [x19; xa7]; [x19; xa7]; [x19; xa0]; [x19; xa7]]
         tt
         [None; None; None;
          Some (mkFault "Failed bulk transfer."%string false [x19]);
          None; None; None;
          Some (mkFault "Failed control transfer."%string true [])]
         0)
      (mkErr 0 EmptyString) in
  err unit (Bridge unit) spec_float o
    = mkErr 2 "Failed bulk transfer.Failed control transfer."%string
  /\ List.length (trace unit (Bridge unit) spec_float o) = 9%nat
  /\ (IEEE.to_Q (value unit (Bridge unit) spec_float o) == 82)%Q.
Proof.
  cbv zeta. split; [|split]; vm_compute; reflexivity.
Qed.

(** Sums of 2000 and 2001. *)
Lemma currentOfSum_increasing_witness :
  0 <= 2000 /\ 2000 < 2001 /\ 2001 <= MAX_SUM
  /\ (IEEE.to_Q (currentOfSum 2000) < IEEE.to_Q (currentOfSum 2001))%Q.
Proof.
  assert (H0 : 0 <= 2000) by lia.
  assert (H1 : 2000 < 2001) by lia.
  assert (H2 : 2001 <= MAX_SUM) by (vm_compute; discriminate).
  split; [exact H0|]. split; [exact H1|]. split; [exact H2|].
  exact (currentOfSum_increasing 2000 2001 H0 H1 H2).
Defined.

(** Six readings of the code 410: the current is 102.5 mA. *)
Lemma getCurrent_constant_reading_witness :
  (IEEE.to_Q
     (value unit (Bridge unit) spec_float
        (run unit (sim unit 0x0010 0x0020) (getCurrent unit)
           (mkBridge unit true true true
              [[x19; xa7]; [x19; xa7]; [x19; xa7]; [x19; xa7]; [x19; xa7]; [x19; xa7]]
              tt [] 0)
           (mkErr 0 EmptyString)))
   == 410 # 4)%Q.
Proof.
  exact (getCurrent_constant_reading unit (sim unit 0x0010 0x0020)
           (mkBridge unit true true true
              [[x19; xa7]; [x19; xa7]; [x19; xa7]; [x19; xa7]; [x19; xa7]; [x19; xa7]]
              tt [] 0)
           (mkErr 0 EmptyString) 410 eq_refl).
Defined.

(** A bridge that delivers no data at all. *)
Lemma getCurrent_all_reads_failed_witness :
  value unit (Bridge unit) spec_float
    (run unit (sim unit 0x0010 0x0020) (getCurrent unit)
       (mkBridge unit true true true [] tt [] 0)
       (mkErr 0 EmptyString))
  = S754_zero false.
Proof.
  exact (getCurrent_all_reads_failed unit (sim unit 0x0010 0x0020)
           (mkBridge unit true true true [] tt [] 0)
           (mkErr 0 EmptyString) eq_refl).
Defined.

(** A set-up, a measurement and the three status queries, with one transfer
    failing. *)
Lemma queries_write_no_line_witness :
  lineChanges
    (steps unit
       (trace unit (Bridge unit) unit
          (run unit (sim unit 0x0010 0x0020)
             (session unit 0x0010 0x0020 0x7df8 1 3 0 0 0x10c4 0x8c96
                [m_setup; m_getCurrent; m_getUSBPowerStatus;
                 m_getUSBDataStatus; m_getOvercurrentStatus])
             (mkBridge unit false false true [] tt
                [None; Some (mkFault "Failed bulk transfer."%string true [x19])] 0)
             (mkErr 0 EmptyString))))
  = [].
Proof.
  exact (queries_write_no_line unit 0x0010 0x0020 0x7df8 1 3 0 0 0x10c4 0x8c96
           (sim unit 0x0010 0x0020)
           [m_setup; m_getCurrent; m_getUSBPowerStatus;
            m_getUSBDataStatus; m_getOvercurrentStatus]
           (mkBridge unit false false true [] tt
              [None; Some (mkFault "Failed bulk transfer."%string true [x19])] 0)
           (mkErr 0 EmptyString) eq_refl).
Defined.

(** [switchUSB(true)] with VBUS on and the data lines off. *)
Lemma switchUSB_sets_both_witness :
  Z.land 0x7df8 0x0010 <> 0
  /\ Z.land 0x7df8 0x0020 <> 0
  /\ value unit (Bridge unit) (bool * bool * bool)
       (run unit (sim unit 0x0010 0x0020)
          (bind unit (switchUSB unit 0x0010 0x0020 0x7df8 true)
             (fun _ =>
                bind unit (getUSBPowerStatus unit)
                  (fun power =>
                     bind unit (getUSBDataStatus unit)
                       (fun data =>
                          bind unit (getOvercurrentStatus unit)
                            (fun overcurrent =>
                               Ret unit (bool * bool * bool)
                                   (power, data, overcurrent))))))
          (mkBridge unit false true true [] tt [] 0)
          (mkErr 0 EmptyString))
     = (true, true, false).
Proof.
  assert (H1 : Z.land 0x7df8 0x0010 <> 0) by (vm_compute; lia).
  assert (H2 : Z.land 0x7df8 0x0020 <> 0) by (vm_compute; lia).
  split; [exact H1|]. split; [exact H2|].
  exact (switchUSB_sets_both unit 0x0010 0x0020 0x7df8 H1 H2 true
           (mkBridge unit false true true [] tt [] 0)
           (mkErr 0 EmptyString) eq_refl).
Defined.

(** Switching one line on from the all-off state. *)
Lemma switch_one_line_only_witness :
  value unit (Bridge unit) (bool * bool)
    (run unit (sim unit 0x0010 0x0020)
       (bind unit (switchUSBPower unit true)
          (fun _ =>
             bind unit (getUSBDataStatus unit)
               (fun data =>
                  bind unit (getOvercurrentStatus unit)
                    (fun overcurrent => Ret unit (bool * bool) (data, overcurrent)))))
       (mkBridge unit true true true [] tt [] 0)
       (mkErr 0 EmptyString))
  = (false, false)
  /\ value unit (Bridge unit) (bool * bool)
       (run unit (sim unit 0x0010 0x0020)
          (bind unit (switchUSBData unit true)
             (fun _ =>
                bind unit (getUSBPowerStatus unit)
                  (fun power =>
                     bind unit (getOvercurrentStatus unit)
                       (fun overcurrent => Ret unit (bool * bool) (power, overcurrent)))))
          (mkBridge unit true true true [] tt [] 0)
          (mkErr 0 EmptyString))
     = (false, false).
Proof.
  exact (switch_one_line_only unit 0x0010 0x0020 true
           (mkBridge unit true true true [] tt [] 0)
           (mkErr 0 EmptyString) eq_refl).
Defined.

(** Two [attach] and two [detach] with the data lines on and VBUS off. *)
Lemma attach_detach_idempotent_witness :
  Z.land 0x7df8 0x0010 <> 0
  /\ Z.land 0x7df8 0x0020 <> 0
  /\ steps unit
       (trace unit (Bridge unit) unit
          (run unit (sim unit 0x0010 0x0020)
             (bind unit (attach unit 0x0010 0x0020 0x7df8 LeftFirst)
                (fun _ => attach unit 0x0010 0x0020 0x7df8 RightFirst))
             (mkBridge unit true false true [] tt [] 0)
             (mkErr 0 EmptyString)))
     = [Lines 0x7df8 0x0030; Wait 100000;
        PowerLine true; Wait 100000; DataLine true; Wait 100000]
  /\ steps unit
       (trace unit (Bridge unit) unit
          (run unit (sim unit 0x0010 0x0020)
             (bind unit (detach unit) (fun _ => detach unit))
             (mkBridge unit true false true [] tt [] 0)
             (mkErr 0 EmptyString)))
     = [DataLine false; Wait 100000].
Proof.
  assert (H1 : Z.land 0x7df8 0x0010 <> 0) by (vm_compute; lia).
  assert (H2 : Z.land 0x7df8 0x0020 <> 0) by (vm_compute; lia).
  split; [exact H1|]. split; [exact H2|].
  exact (attach_detach_idempotent unit 0x0010 0x0020 0x7df8 H1 H2
           LeftFirst RightFirst
           (mkBridge unit true false true [] tt [] 0)
           (mkErr 0 EmptyString) eq_refl).
Defined.

(** A [detach] and an [attach] from the attached state, and the reverse. *)
Lemma detach_attach_cycle_witness :
  Z.land 0x7df8 0x0010 <> 0
  /\ Z.land 0x7df8 0x0020 <> 0
  /\ steps unit
       (trace unit (Bridge unit) unit
          (run unit (sim unit 0x0010 0x0020)
             (bind unit (detach unit)
                (fun _ => attach unit 0x0010 0x0020 0x7df8 LeftFirst))
             (mkBridge unit false false true [] tt [] 0)
             (mkErr 0 EmptyString)))
     = [DataLine false; Wait 100000; PowerLine false; Wait 100000;
        PowerLine true; Wait 100000; DataLine true; Wait 100000]
  /\ steps unit
       (trace unit (Bridge unit) unit
          (run unit (sim unit 0x0010 0x0020)
             (bind unit (attach unit 0x0010 0x0020 0x7df8 LeftFirst)
                (fun _ => detach unit))
             (mkBridge unit false false true [] tt [] 0)
             (mkErr 0 EmptyString)))
     = [DataLine false; Wait 100000; PowerLine false; Wait 100000].
Proof.
  assert (H1 : Z.land 0x7df8 0x0010 <> 0) by (vm_compute; lia).
  assert (H2 : Z.land 0x7df8 0x0020 <> 0) by (vm_compute; lia).
  split; [exact H1|]. split; [exact H2|].
  exact (detach_attach_cycle unit 0x0010 0x0020 0x7df8 H1 H2 LeftFirst
           (mkBridge unit false false true [] tt [] 0)
           (mkErr 0 EmptyString) eq_refl).
Defined.

(** A session from the detached state. *)
Lemma lines_stay_together_witness :
  Z.land 0x7df8 0x0010 <> 0
  /\ Z.land 0x7df8 0x0020 <> 0
  /\ powerOn unit
       (world unit (Bridge unit) unit
          (run unit (sim unit 0x0010 0x0020)
             (session unit 0x0010 0x0020 0x7df8 1 3 0 0 0x10c4 0x8c96
                [m_setup; m_attach LeftFirst; m_getCurrent; m_detach;
                 m_switchUSB true; m_getOvercurrentStatus])
             (mkBridge unit true true true [] tt [] 0)
             (mkErr 0 EmptyString)))
     = dataOn unit
         (world unit (Bridge unit) unit
            (run unit (sim unit 0x0010 0x0020)
               (session unit 0x0010 0x0020 0x7df8 1 3 0 0 0x10c4 0x8c96
                  [m_setup; m_attach LeftFirst; m_getCurrent; m_detach;
                   m_switchUSB true; m_getOvercurrentStatus])
               (mkBridge unit true true true [] tt [] 0)
               (mkErr 0 EmptyString))).
Proof.
  assert (H1 : Z.land 0x7df8 0x0010 <> 0) by (vm_compute; lia).
  assert (H2 : Z.land 0x7df8 0x0020 <> 0) by (vm_compute; lia).
  split; [exact H1|]. split; [exact H2|].
  exact (lines_stay_together unit 0x0010 0x0020 0x7df8 1 3 0 0 0x10c4 0x8c96
           H1 H2
           [m_setup; m_attach LeftFirst; m_getCurrent; m_detach;
            m_switchUSB true; m_getOvercurrentStatus]
           (mkBridge unit true true true [] tt [] 0)
           (mkErr 0 EmptyString) eq_refl eq_refl eq_refl).
Defined.

(** A set-up, a measurement and a [detach] from the attached state, during
    which the second and the eleventh transfer fail: both are reported, and
    all 17 transfers of the three calls are made. *)
Example session_past_failed_transfers :
  let o :=
    run unit (sim unit 0x0010 0x0020)
      (session unit 0x0010 0x0020 0x7df8 1 3 0 0 0x10c4 0x8c96
         [m_setup; m_getCurrent; m_detach])
      (mkBridge unit false false true [] tt
         [None; Some (mkFault "Failed control transfer."%string true []);
          None; None; None; None; None; None; None; None;
          Some (mkFault "Failed bulk transfer."%string false [x19])]
         0)
      (mkErr 0 EmptyString) in
  err unit (Bridge unit) unit o
    = mkErr 2 "Failed control transfer.Failed bulk transfer."%string
  /\ transfers unit (trace unit (Bridge unit) unit o) = 17%nat
  /\ steps unit (trace unit (Bridge unit) unit o)
     = [Wait 1100; Wait 100; DataLine false; Wait 100000;
        PowerLine false; Wait 100000].
Proof.
  cbv zeta. split; [|split]; vm_compute; reflexivity.
Qed.
